(** * Article page: lookup by slug, social metadata and rendering

    A shallow embedding of [src/app/articles/[...slug]/page.tsx]:
    [generateMetadata], [getArticleFromParams] and [ArticlePage].

    The three functions are [async] only by framework convention; they
    await nothing but each other, so they are embedded in direct style.
    Every read of a property of an article record is logged, in evaluation
    order, so that statements about what the page touches can be made. *)

From Stdlib Require Import String Ascii List ZArith Bool Lia DecimalString.
Import ListNotations.
Local Open Scope list_scope.
Local Open Scope string_scope.
Set Warnings "-register-all".

(** ** Numbers *)

(** A JavaScript number, held the way [Number::toString] looks at it: a
    finite non-zero number is a sign and a positive decimal significand
    [digits] scaled by a power of ten, [digits * 10 ^ exponent].  For a
    double, [digits] is its shortest decimal that reads back as the same
    double; 4.3 is [Finite false 43 (-1)], 1e21 is [Finite false 1 21]. *)
Inductive number : Type :=
| NaN
| Infinity (negative : bool)
| Zero (negative : bool)
| Finite (negative : bool) (digits : positive) (exponent : Z).

(** An integer literal. *)
Definition integer (z : Z) : number :=
  match z with
  | Z0 => Zero false
  | Zpos p => Finite false p 0
  | Zneg p => Finite true p 0
  end.

Definition digits_of (s : positive) : string :=
  NilEmpty.string_of_uint (Pos.to_uint s).

(** Drops the zeros a significand ends in. *)
Fixpoint strip_zeros (d : string) : string :=
  match d with
  | EmptyString => EmptyString
  | String c d' =>
      let r := strip_zeros d' in
      if (String.eqb r "" && Ascii.eqb c "0")%bool then "" else String c r
  end.

Fixpoint zeros (m : nat) : string :=
  match m with
  | O => ""
  | S m' => String "0" (zeros m')
  end.

(** The decimal of a natural number, for the exponent part. *)
Definition decimal (z : Z) : string := NilZero.string_of_uint (N.to_uint (Z.to_N z)).

(** Steps 5-10 of [Number::toString] (radix 10): [d] holds the [k] digits
    of the significand and the number is [0.d * 10 ^ n]. *)
Definition format (d : string) (n : Z) : string :=
  let k := Z.of_nat (String.length d) in
  if ((k <=? n) && (n <=? 21))%Z%bool then
    d ++ zeros (Z.to_nat (n - k))
  else if ((0 <? n) && (n <=? 21))%Z%bool then
    substring 0 (Z.to_nat n) d ++ "." ++ substring (Z.to_nat n) (Z.to_nat (k - n)) d
  else if ((-6 <? n) && (n <=? 0))%Z%bool then
    "0." ++ zeros (Z.to_nat (- n)) ++ d
  else
    let e := (n - 1)%Z in
    let sign := if (0 <? e)%Z then "+" else "-" in
    if (k =? 1)%Z then d ++ "e" ++ sign ++ decimal (Z.abs e)
    else substring 0 1 d ++ "." ++ substring 1 (Z.to_nat (k - 1)) d
         ++ "e" ++ sign ++ decimal (Z.abs e).

(** [String(x)], as React applies it to a number child. *)
Definition toString (x : number) : string :=
  match x with
  | NaN => "NaN"
  | Infinity negative => (if negative then "-" else "") ++ "Infinity"
  | Zero _ => "0"
  | Finite negative s exponent =>
      (if negative then "-" else "")
      ++ format (strip_zeros (digits_of s))
                (exponent + Z.of_nat (String.length (digits_of s)))
  end.

(** ** Data model *)

(** A record of [allArticles] (type generated by contentlayer). *)
Module Article.
Record t : Type := mk {
  slugAsParams : string;
  slug : string;
  title : string;
  description : option string;   (* [undefined] when the front matter has none *)
  date : string;                 (* ISO date string *)
  timeToRead : number;           (* minutes *)
  body_code : string             (* [body.code], the compiled MDX payload *)
}.
End Article.

(** [params: { slug: string[] }] *)
Module Params.
Record t : Type := mk { slug : list string }.
End Params.

(** The part of next's [Metadata] that the page fills in. *)
Module OpenGraph.
Record t : Type := mk {
  title : string;
  description : option string;
  type : string;
  publishedTime : string;
  url : string
}.
End OpenGraph.

Module Twitter.
Record t : Type := mk {
  card : string;
  title : string;
  description : option string
}.
End Twitter.

Module Metadata.
Record t : Type := mk {
  title : string;
  description : option string;
  openGraph : OpenGraph.t;
  twitter : Twitter.t
}.
End Metadata.

(** [T | null]: what [getArticleFromParams] returns.  [option] is kept for
    [T | undefined] ([Array.prototype.find], [generateMetadata]). *)
Inductive Nullable (A : Type) : Type :=
| null : Nullable A
| value : A -> Nullable A.
Arguments null {A}.
Arguments value {A} _.

(** ** React element trees *)

Inductive PropVal : Type :=
| PStr (s : string)
| PTrue.

(** What a JSX expression evaluates to: an element (host tag or
    component), a string, a number, or [undefined]. *)
Inductive Node : Type :=
| Elem (tag : string) (props : list (string * PropVal)) (children : list Node)
| Text (s : string)
| Num (n : number)
| Undefined.

(** The text a tree shows: strings and numbers contribute their characters,
    [undefined] nothing, an element the texts of its children in order. *)
Fixpoint textContent (n : Node) : string :=
  match n with
  | Elem _ _ children =>
      (fix go (l : list Node) : string :=
         match l with
         | [] => ""
         | c :: l' => textContent c ++ go l'
         end) children
  | Text s => s
  | Num k => toString k
  | Undefined => ""
  end.

(** All nodes of a tree, root first, in document order. *)
Fixpoint subnodes (n : Node) : list Node :=
  n :: match n with
       | Elem _ _ children =>
           (fix go (l : list Node) : list Node :=
              match l with
              | [] => []
              | c :: l' => (subnodes c ++ go l')%list
              end) children
       | _ => []
       end.

Definition children_of (n : Node) : list Node :=
  match n with
  | Elem _ _ children => children
  | _ => []
  end.

Definition is_paragraph (n : Node) : bool :=
  match n with
  | Elem tag _ _ => String.eqb tag "p"
  | _ => false
  end.

(** ** Effects: property reads and the not-found exit *)

Inductive Field : Type :=
| FslugAsParams | Fslug | Ftitle | Fdescription | Fdate | FtimeToRead | Fbody_code.

(** One read of a property of a record. *)
Definition Access : Type := (Article.t * Field)%type.

(** The error [notFound()] of next/navigation throws. *)
Inductive Error : Type := NEXT_NOT_FOUND.

Inductive Outcome (A : Type) : Type :=
| Return : A -> Outcome A
| Throw : Error -> Outcome A.
Arguments Return {A} _.
Arguments Throw {A} _.

(** A computation: the reads it made, in order, and how it ended. *)
Definition M (A : Type) : Type := (list Access * Outcome A)%type.

Definition ret {A} (a : A) : M A := ([], Return a).

Definition bind {A B} (m : M A) (f : A -> M B) : M B :=
  match m with
  | (t, Return a) => let (t', r) := f a in ((t ++ t')%list, r)
  | (t, Throw e) => (t, Throw e)
  end.

Notation "x <- c1 ;; c2" := (bind c1 (fun x => c2))
  (at level 61, c1 at next level, right associativity).

Definition reads {A} (m : M A) : list Access := fst m.
Definition outcome {A} (m : M A) : Outcome A := snd m.

(** [article.f] *)
Definition get {A} (f : Field) (proj : Article.t -> A) (article : Article.t) : M A :=
  ([(article, f)], Return (proj article)).

(** [notFound()]: never returns. *)
Definition notFound {A} : M A := ([], Throw NEXT_NOT_FOUND).

(** ** JavaScript helpers *)

(** [Array.prototype.join] on an array of strings. *)
Fixpoint join (sep : string) (l : list string) : string :=
  match l with
  | [] => ""
  | [x] => x
  | x :: l' => x ++ sep ++ join sep l'
  end.

(** [Array.prototype.find] with a callback that may read properties. *)
Fixpoint find {A} (p : A -> M bool) (l : list A) : M (option A) :=
  match l with
  | [] => ret None
  | a :: l' =>
      b <- p a ;;
      if b then ret (Some a) else find p l'
  end.

(** Truthiness of [string | undefined]. *)
Definition truthy (d : option string) : bool :=
  match d with
  | None => false
  | Some s => negb (String.eqb s "")
  end.

(** A [string | undefined] value used as a JSX child. *)
Definition child (d : option string) : Node :=
  match d with
  | None => Undefined
  | Some s => Text s
  end.

(** ** The page *)

Section Page.

(** [import { allArticles } from "contentlayer/generated"] *)
Variable allArticles : list Article.t.

(** [import { relativeDate } from "@/lib/date"]; it consults the clock,
    whose reading is [now]. *)
Variable now : Z.
Variable relativeDate : Z -> string -> string.

(** Lines 24-26, the lookup written inline in [generateMetadata]:
    [allArticles.find((article) => article.slugAsParams === params.slug.join("/"))]. *)
Definition generateMetadata_lookup (params : Params.t) : M (option Article.t) :=
  find (fun article =>
          s <- get FslugAsParams Article.slugAsParams article ;;
          ret (String.eqb s (join "/" (Params.slug params))))
       allArticles.

(** [generateMetadata]: [undefined] when nothing is found, otherwise the
    metadata built from [title], [date], [description] and [slug], read in
    the order of the destructuring pattern. *)
Definition generateMetadata (params : Params.t) : M (option Metadata.t) :=
  article <- generateMetadata_lookup params ;;
  match article with
  | None => ret None
  | Some article =>
      title <- get Ftitle Article.title article ;;
      publishedTime <- get Fdate Article.date article ;;
      description <- get Fdescription Article.description article ;;
      slug <- get Fslug Article.slug article ;;
      ret (Some
        {| Metadata.title := title;
           Metadata.description := description;
           Metadata.openGraph :=
             {| OpenGraph.title := title;
                OpenGraph.description := description;
                OpenGraph.type := "article";
                OpenGraph.publishedTime := publishedTime;
                OpenGraph.url := "https://benjoquilario.vercel.app/articles/" ++ slug |};
           Metadata.twitter :=
             {| Twitter.card := "summary_large_image";
                Twitter.title := title;
                Twitter.description := description |} |})
  end.

(** [getArticleFromParams]: the record found, or [null]. *)
Definition getArticleFromParams (params : Params.t) : M (Nullable Article.t) :=
  let slug := join "/" (Params.slug params) in
  article <- find (fun article =>
                     s <- get FslugAsParams Article.slugAsParams article ;;
                     ret (String.eqb s slug))
                  allArticles ;;
  match article with
  | None => ret null
  | Some article => ret (value article)
  end.

(** [ArticlePage]: [notFound()] when the lookup gave [null], otherwise the
    element tree of the JSX, its expressions evaluated in source order. *)
Definition ArticlePage (params : Params.t) : M Node :=
  article <- getArticleFromParams params ;;
  match article with
  | null => notFound
  | value article =>
      title <- get Ftitle Article.title article ;;
      guard <- get Fdescription Article.description article ;;
      paragraph <- (if truthy guard
                    then description <- get Fdescription Article.description article ;;
                         ret (Elem "p" [] [child description])
                    else ret (child guard)) ;;
      date <- get Fdate Article.date article ;;
      timeToRead <- get FtimeToRead Article.timeToRead article ;;
      code <- get Fbody_code Article.body_code article ;;
      ret (Elem "article" [("className", PStr "prose py-6 dark:prose-invert")]
        [ Elem "Link"
            [("href", PStr "/");
             ("className", PStr "flex items-center space-x-2 py-2 transition hover:underline hover:underline-offset-2")]
            [ Elem "ChevronLeft" [("className", PStr "mr-2 h-4 w-4")] [];
              Text "Back" ];
          Elem "h1" [] [Text title];
          paragraph;
          Elem "hr" [("className", PStr "my-4")] [];
          Elem "div" [("className", PStr "flex flex-wrap items-stretch justify-start gap-3")]
            [ Elem "div" [("className", PStr "flex shrink-0 items-center gap-2")]
                [ Elem "Calendar" [("className", PStr "h-4 w-4"); ("aria-hidden", PTrue)] [];
                  Elem "span" [("className", PStr "text-sm text-muted-foreground/90")]
                    [Text (relativeDate now date)] ];
              Elem "div" [("className", PStr "flex shrink-0 items-center gap-2")]
                [ Elem "Clock" [("className", PStr "h-4 w-4"); ("aria-hidden", PTrue)] [];
                  Elem "span" [("className", PStr "text-sm text-muted-foreground/90")]
                    [Num timeToRead; Text " min read"] ] ];
          Elem "hr" [("className", PStr "my-4")] [];
          Elem "Mdx" [("code", PStr code)] [] ])
  end.

End Page.

(** ** The collection as shared state

    [allArticles] is one array, shared by every request of the process.
    Here a computation starts from the array as it finds it and leaves it
    as the next call will find it; array methods are the primitives. *)
Module Shared.

Definition St (A : Type) : Type := list Article.t -> list Article.t * M A.

(** A step that does not touch the array. *)
Definition lift {A} (m : M A) : St A := fun store => (store, m).

Definition bind {A B} (m : St A) (f : A -> St B) : St B :=
  fun store =>
    match m store with
    | (store', (t, Return a)) =>
        match f a store' with
        | (store'', (t', r)) => (store'', ((t ++ t')%list, r))
        end
    | (store', (t, Throw e)) => (store', (t, Throw e))
    end.

(** [allArticles.find(callback)]: reads the array, leaves it as it is. *)
Definition allArticles_find (p : Article.t -> M bool) : St (option Article.t) :=
  fun store => (store, find p store).

(** [allArticles.shift()]: takes the first record out of the array.  The
    page never calls it; it is here to tell a method that writes from one
    that does not. *)
Definition allArticles_shift : St (option Article.t) :=
  fun store =>
    match store with
    | [] => (store, ([], Return None))
    | a :: rest => (rest, ([], Return (Some a)))
    end.

(** [getArticleFromParams], lines 51-58, over the shared array. *)
Definition getArticleFromParams (params : Params.t) : St (Nullable Article.t) :=
  let slug := join "/" (Params.slug params) in
  bind (allArticles_find (fun article =>
                            s <- get FslugAsParams Article.slugAsParams article ;;
                            ret (String.eqb s slug)))
       (fun article =>
          match article with
          | None => lift (ret null)
          | Some article => lift (ret (value article))
          end).

(** Two calls, one after the other. *)
Definition twice {A} (m : St A) : St (A * A) :=
  bind m (fun first => bind m (fun second => lift (ret (first, second)))).

End Shared.

(** ** Sample data *)

(** The article of [content/articles]: front matter of the MDX file. *)
Definition authentication_nextjs : Article.t :=
  {| Article.slugAsParams := "authentication-nextjs";
     Article.slug := "authentication-nextjs";
     Article.title := "Implement authentication system using Next.js with app dir";
     Article.description := Some "A guide that explains how to build a authentication system using Next-Auth with credentials providers and Prisma Adapter.";
     Article.date := "2023-09-19";
     Article.timeToRead := integer 5;
     Article.body_code := "var Component = MDXContent" |}.

(** The same path filed a second time, under another title. *)
Definition authentication_nextjs_draft : Article.t :=
  {| Article.slugAsParams := "authentication-nextjs";
     Article.slug := "authentication-nextjs";
     Article.title := "Draft";
     Article.description := None;
     Article.date := "2023-09-01";
     Article.timeToRead := integer 1;
     Article.body_code := "" |}.

(** A record whose [slug] keeps the directory it was filed under. *)
Definition authentication_nextjs_blog : Article.t :=
  {| Article.slugAsParams := "authentication-nextjs";
     Article.slug := "/blog/authentication-nextjs";
     Article.title := "Implement authentication system using Next.js with app dir";
     Article.description := Some "";
     Article.date := "2023-09-19";
     Article.timeToRead := integer 5;
     Article.body_code := "var Component = MDXContent" |}.

Definition hello_world : Article.t :=
  {| Article.slugAsParams := "notes/hello-world";
     Article.slug := "notes/hello-world";
     Article.title := "Hello";
     Article.description := None;
     Article.date := "2024-01-02";
     Article.timeToRead := integer 12;
     Article.body_code := "var Component = Hello" |}.

Definition authentication_params : Params.t :=
  {| Params.slug := ["authentication-nextjs"] |}.

Definition missing_params : Params.t :=
  {| Params.slug := ["no"; "such"; "article"] |}.

(** A stand-in for [relativeDate] in concrete runs. *)
Definition sample_relativeDate (now : Z) (date : string) : string :=
  "since " ++ date.

(** ** Vocabulary of the statements *)

(** The records [find] visits when looking for the key [k]: everything up
    to and including the first record whose [slugAsParams] is [k]. *)
Fixpoint scanned (k : string) (l : list Article.t) : list Article.t :=
  match l with
  | [] => []
  | a :: l' => a :: (if String.eqb (Article.slugAsParams a) k then [] else scanned k l')
  end.

Definition slugAsParams_read (a : Article.t) : Access := (a, FslugAsParams).

(** [undefined] becomes [null], a record stays itself. *)
Definition orNull {A} (o : option A) : Nullable A :=
  match o with
  | None => null
  | Some a => value a
  end.

(** [s] ends in [suffix]. *)
Definition EndsWith (suffix s : string) : Prop :=
  exists prefix, s = prefix ++ suffix.

(** [String.prototype.endsWith], to decide [EndsWith]. *)
Fixpoint endsWith (suffix s : string) : bool :=
  if String.eqb s suffix then true
  else match s with
       | EmptyString => false
       | String _ s' => endsWith suffix s'
       end.

(** [r] is the first record of [l] whose [slugAsParams] is [k]. *)
Definition FirstMatch (k : string) (l : list Article.t) (r : Article.t) : Prop :=
  exists before after,
    l = (before ++ r :: after)%list /\
    Article.slugAsParams r = k /\
    forall x, In x before -> Article.slugAsParams x <> k.

(** [sub] occurs in [s]. *)
Definition Contains (sub s : string) : Prop :=
  exists before after, s = before ++ sub ++ after.

(** The tree [out] has a [tag] element whose text is exactly [text]. *)
Definition ShowsIn (tag : string) (out : Node) (text : string) : Prop :=
  exists props children,
    In (Elem tag props children) (subnodes out) /\
    textContent (Elem tag props children) = text.

(** The properties the page displays. *)
Definition displayed : list Field :=
  [Ftitle; Fdescription; Fdate; FtimeToRead; Fbody_code].

(** ** Lemmas on the helpers *)

Lemma bind_ret_l {A B} (a : A) (f : A -> M B) : bind (ret a) f = f a.
Proof. unfold bind, ret. destruct (f a). reflexivity. Qed.

Lemma bind_ret_r {A} (m : M A) : bind m ret = m.
Proof.
  destruct m as [t [a|e]]; cbn [bind ret]; [rewrite app_nil_r|]; reflexivity.
Qed.

Lemma bind_assoc {A B C} (m : M A) (f : A -> M B) (g : B -> M C) :
  bind (bind m f) g = bind m (fun a => bind (f a) g).
Proof.
  destruct m as [t [a|e]]; cbn [bind]; [|reflexivity].
  destruct (f a) as [t' [b|e]]; cbn [bind]; [|reflexivity].
  destruct (g b) as [t'' o]. rewrite app_assoc. reflexivity.
Qed.

Lemma join_concat (sep : string) (l : list string) : join sep l = String.concat sep l.
Proof.
  induction l as [|x l IH]; [reflexivity|].
  cbn [join String.concat]. destruct l; [reflexivity | rewrite IH; reflexivity].
Qed.

Lemma find_slugAsParams (k : string) (l : list Article.t) :
  find (fun article =>
          s <- get FslugAsParams Article.slugAsParams article ;;
          ret (String.eqb s k)) l
  = (map slugAsParams_read (scanned k l),
     Return (List.find (fun a => String.eqb (Article.slugAsParams a) k) l)).
Proof.
  induction l as [|a l IH]; [reflexivity|].
  cbn [find scanned List.find map].
  unfold bind at 1. cbn [get ret bind app] in IH |- *.
  destruct (String.eqb (Article.slugAsParams a) k).
  - reflexivity.
  - rewrite IH. reflexivity.
Qed.

Lemma generateMetadata_lookup_eq (allArticles : list Article.t) (params : Params.t) :
  generateMetadata_lookup allArticles params
  = (map slugAsParams_read (scanned (join "/" (Params.slug params)) allArticles),
     Return (List.find
               (fun a => String.eqb (Article.slugAsParams a) (join "/" (Params.slug params)))
               allArticles)).
Proof. apply find_slugAsParams. Qed.

Lemma getArticleFromParams_eq (allArticles : list Article.t) (params : Params.t) :
  getArticleFromParams allArticles params
  = (map slugAsParams_read (scanned (join "/" (Params.slug params)) allArticles),
     Return (orNull (List.find
               (fun a => String.eqb (Article.slugAsParams a) (join "/" (Params.slug params)))
               allArticles))).
Proof.
  unfold getArticleFromParams. rewrite find_slugAsParams.
  unfold bind. destruct (List.find _ _); cbn; rewrite app_nil_r; reflexivity.
Qed.

Lemma find_FirstMatch (k : string) (l : list Article.t) (r : Article.t) :
  List.find (fun a => String.eqb (Article.slugAsParams a) k) l = Some r <->
  FirstMatch k l r.
Proof.
  induction l as [|a l IH]; cbn [List.find].
  - split; [discriminate|].
    intros (before & after & H & _). destruct before; discriminate.
  - destruct (String.eqb (Article.slugAsParams a) k) eqn:E.
    + apply String.eqb_eq in E. split.
      * intros [= <-]. exists [], l.
        split; [reflexivity|]. split; [exact E|]. intros x [].
      * intros (before & after & H & Hr & Hb). destruct before as [|b before].
        -- injection H as -> _. reflexivity.
        -- injection H as <- _. exfalso. apply (Hb a); [left; reflexivity | exact E].
    + apply String.eqb_neq in E. rewrite IH. split.
      * intros (before & after & -> & Hr & Hb).
        exists (a :: before), after.
        split; [reflexivity|]. split; [exact Hr|].
        intros x [<- | Hx]; [exact E | exact (Hb x Hx)].
      * intros (before & after & H & Hr & Hb). destruct before as [|b before].
        -- injection H as -> _. contradiction.
        -- injection H as <- ->. exists before, after.
           split; [reflexivity|]. split; [exact Hr|].
           intros x Hx. apply Hb. right. exact Hx.
Qed.

Lemma find_no_match (k : string) (l : list Article.t) :
  List.find (fun a => String.eqb (Article.slugAsParams a) k) l = None <->
  forall r, In r l -> Article.slugAsParams r <> k.
Proof.
  split.
  - intros H r Hin. apply String.eqb_neq. exact (find_none _ _ H r Hin).
  - intros H. destruct (List.find _ l) as [r|] eqn:E; [|reflexivity].
    apply find_some in E. destruct E as [Hin E]. apply String.eqb_eq in E.
    exfalso. exact (H r Hin E).
Qed.

Lemma scanned_no_match (k : string) (l : list Article.t) :
  (forall r, In r l -> Article.slugAsParams r <> k) -> scanned k l = l.
Proof.
  induction l as [|a l IH]; intros H; [reflexivity|].
  cbn [scanned].
  destruct (String.eqb (Article.slugAsParams a) k) eqn:E.
  - apply String.eqb_eq in E. exfalso. apply (H a); [left; reflexivity | exact E].
  - rewrite IH; [reflexivity|]. intros r Hr. apply H. right. exact Hr.
Qed.

Lemma endsWith_EndsWith (suffix s : string) :
  endsWith suffix s = true <-> EndsWith suffix s.
Proof.
  split.
  - induction s as [|c s IH]; cbn [endsWith].
    + destruct (String.eqb "" suffix) eqn:E; [|discriminate].
      apply String.eqb_eq in E. intros _. exists "". rewrite <- E. reflexivity.
    + destruct (String.eqb (String c s) suffix) eqn:E.
      * apply String.eqb_eq in E. intros _. exists "". rewrite E. reflexivity.
      * intros H. destruct (IH H) as [p ->]. exists (String c p). reflexivity.
  - intros [p ->]. induction p as [|c p IH].
    + cbn [append]. destruct suffix; cbn [endsWith]; rewrite String.eqb_refl; reflexivity.
    + cbn [append endsWith]. rewrite IH. destruct (String.eqb _ suffix); reflexivity.
Qed.

Lemma nth_error_FirstMatch (k : string) (l : list Article.t) (i : nat) (r : Article.t) :
  nth_error l i = Some r ->
  Article.slugAsParams r = k ->
  (forall h x, h < i -> nth_error l h = Some x -> Article.slugAsParams x <> k) ->
  FirstMatch k l r.
Proof.
  intros Hi Hr Hearlier.
  destruct (nth_error_split l i Hi) as (before & after & -> & Hlen).
  exists before, after. split; [reflexivity|]. split; [exact Hr|].
  intros x Hx. destruct (In_nth_error before x Hx) as [h Hh].
  assert (Hlt : h < i).
  { rewrite <- Hlen. apply nth_error_Some. rewrite Hh. discriminate. }
  apply (Hearlier h x Hlt).
  rewrite nth_error_app1; [exact Hh | rewrite Hlen; exact Hlt].
Qed.

Lemma getArticleFromParams_FirstMatch (allArticles : list Article.t) (params : Params.t)
      (r : Article.t) :
  FirstMatch (join "/" (Params.slug params)) allArticles r ->
  outcome (getArticleFromParams allArticles params) = Return (value r).
Proof.
  intros H. apply find_FirstMatch in H.
  rewrite getArticleFromParams_eq. cbn [outcome snd]. rewrite H. reflexivity.
Qed.

Lemma getArticleFromParams_value_FirstMatch (allArticles : list Article.t)
      (params : Params.t) (r : Article.t) :
  outcome (getArticleFromParams allArticles params) = Return (value r) ->
  FirstMatch (join "/" (Params.slug params)) allArticles r.
Proof.
  rewrite getArticleFromParams_eq. cbn [outcome snd]. intros H.
  apply find_FirstMatch. destruct (List.find _ allArticles) as [a|].
  - cbn in H. congruence.
  - cbn in H. discriminate.
Qed.

Lemma FirstMatch_In (k : string) (l : list Article.t) (r : Article.t) :
  FirstMatch k l r -> In r l.
Proof.
  intros (before & after & -> & _). apply in_or_app. right. left. reflexivity.
Qed.

(** ** Lookup *)

(** C1, as stated, fails when two records share a slug: the collection
    contains the draft, whose [slugAsParams] is the joined path, and the
    lookup returns the record filed before it. *)
Lemma getArticleFromParams_not_every_match :
  ~ (forall r,
       In r [authentication_nextjs; authentication_nextjs_draft] ->
       Article.slugAsParams r = join "/" (Params.slug authentication_params) ->
       outcome (getArticleFromParams [authentication_nextjs; authentication_nextjs_draft]
                  authentication_params)
       = Return (value r)).
Proof.
  intros H.
  specialize (H authentication_nextjs_draft (or_intror (or_introl eq_refl)) eq_refl).
  vm_compute in H. discriminate H.
Qed.

(** C1 (amended): if the collection contains a record whose [slugAsParams]
    is the segments joined with "/", [getArticleFromParams] returns the
    first such record in collection order, which is that very record when
    no other record of the collection has the same [slugAsParams]; if no
    record's [slugAsParams] is the joined string, it returns [null]. *)
Theorem getArticleFromParams_first_or_null :
  forall (allArticles : list Article.t) (params : Params.t),
    (forall r,
        In r allArticles ->
        Article.slugAsParams r = join "/" (Params.slug params) ->
        exists first,
          FirstMatch (join "/" (Params.slug params)) allArticles first /\
          outcome (getArticleFromParams allArticles params) = Return (value first) /\
          ((forall x, In x allArticles ->
                      Article.slugAsParams x = join "/" (Params.slug params) -> x = r) ->
           first = r)) /\
    ((forall r, In r allArticles ->
                Article.slugAsParams r <> join "/" (Params.slug params)) ->
     outcome (getArticleFromParams allArticles params) = Return null).
Proof.
  intros allArticles params. split.
  - intros r Hin Hr.
    destruct (List.find (fun a => String.eqb (Article.slugAsParams a)
                                    (join "/" (Params.slug params))) allArticles)
      as [first|] eqn:E.
    + apply find_FirstMatch in E. exists first.
      split; [exact E|]. split; [apply getArticleFromParams_FirstMatch; exact E|].
      intros Hunique. apply Hunique.
      * exact (FirstMatch_In _ _ _ E).
      * destruct E as (_ & _ & _ & Hfirst & _). exact Hfirst.
    + exfalso. exact (proj1 (find_no_match _ _) E r Hin Hr).
  - intros Hnone. apply find_no_match in Hnone.
    rewrite getArticleFromParams_eq. cbn [outcome snd]. rewrite Hnone. reflexivity.
Qed.

(** On the sample collection: the only record filed under the path is
    returned, and a path nobody has gives [null]. *)
Lemma getArticleFromParams_first_or_null_witness :
  outcome (getArticleFromParams [hello_world; authentication_nextjs] authentication_params)
  = Return (value authentication_nextjs) /\
  outcome (getArticleFromParams [hello_world; authentication_nextjs] missing_params)
  = Return null.
Proof.
  split.
  - destruct (proj1 (getArticleFromParams_first_or_null
                       [hello_world; authentication_nextjs] authentication_params)
                    authentication_nextjs (or_intror (or_introl eq_refl)) eq_refl)
      as (first & _ & Hout & Hsame).
    rewrite Hout. rewrite Hsame; [reflexivity|].
    intros x [<- | [<- | []]] Hx; [discriminate Hx | reflexivity].
  - apply (proj2 (getArticleFromParams_first_or_null
                    [hello_world; authentication_nextjs] missing_params)).
    intros r [<- | [<- | []]]; discriminate.
Defined.

(** C3: when two (or more) records have the joined string as their
    [slugAsParams], [getArticleFromParams] returns the one that comes first
    in the collection. *)
Theorem getArticleFromParams_duplicates_first :
  forall (allArticles : list Article.t) (params : Params.t)
         (i j : nat) (ri rj : Article.t),
    i < j ->
    nth_error allArticles i = Some ri ->
    nth_error allArticles j = Some rj ->
    Article.slugAsParams ri = join "/" (Params.slug params) ->
    Article.slugAsParams rj = join "/" (Params.slug params) ->
    (forall h x, h < i -> nth_error allArticles h = Some x ->
                 Article.slugAsParams x <> join "/" (Params.slug params)) ->
    outcome (getArticleFromParams allArticles params) = Return (value ri).
Proof.
  intros allArticles params i j ri rj _ Hi _ Hri _ Hearlier.
  apply getArticleFromParams_FirstMatch.
  exact (nth_error_FirstMatch _ _ i ri Hi Hri Hearlier).
Qed.

(** The draft and the article share a path; the draft comes first. *)
Lemma getArticleFromParams_duplicates_first_witness :
  outcome (getArticleFromParams
             [hello_world; authentication_nextjs_draft; authentication_nextjs]
             authentication_params)
  = Return (value authentication_nextjs_draft).
Proof.
  apply (getArticleFromParams_duplicates_first
           [hello_world; authentication_nextjs_draft; authentication_nextjs]
           authentication_params 1 2 authentication_nextjs_draft authentication_nextjs).
  - lia.
  - reflexivity.
  - reflexivity.
  - reflexivity.
  - reflexivity.
  - intros h x Hh Hx. assert (h = 0) as -> by lia.
    injection Hx as <-. discriminate.
Defined.

(** C9: the lookup written inline in [generateMetadata] and
    [getArticleFromParams] visit the same records and find the same one,
    or none ([undefined] there, [null] here). *)
Theorem generateMetadata_lookup_agrees :
  forall (allArticles : list Article.t) (params : Params.t),
  exists (visited : list Access) (found : option Article.t),
    generateMetadata_lookup allArticles params = (visited, Return found) /\
    getArticleFromParams allArticles params = (visited, Return (orNull found)) /\
    (found = None <->
     outcome (getArticleFromParams allArticles params) = Return null) /\
    (forall r, found = Some r <->
               outcome (getArticleFromParams allArticles params) = Return (value r)).
Proof.
  intros allArticles params.
  rewrite generateMetadata_lookup_eq, getArticleFromParams_eq.
  eexists. eexists. split; [reflexivity|]. split; [reflexivity|].
  cbn [outcome snd].
  destruct (List.find _ allArticles) as [a|]; cbn [orNull]; split.
  - split; discriminate.
  - intros r. split; congruence.
  - split; reflexivity.
  - intros r. split; discriminate.
Qed.

(** ** Metadata *)

Lemma generateMetadata_not_found (allArticles : list Article.t) (params : Params.t) :
  List.find (fun a => String.eqb (Article.slugAsParams a) (join "/" (Params.slug params)))
            allArticles = None ->
  outcome (generateMetadata allArticles params) = Return None.
Proof.
  intros H. unfold generateMetadata. rewrite generateMetadata_lookup_eq, H.
  reflexivity.
Qed.

Lemma generateMetadata_found (allArticles : list Article.t) (params : Params.t)
      (r : Article.t) :
  List.find (fun a => String.eqb (Article.slugAsParams a) (join "/" (Params.slug params)))
            allArticles = Some r ->
  outcome (generateMetadata allArticles params)
  = Return (Some
      {| Metadata.title := Article.title r;
         Metadata.description := Article.description r;
         Metadata.openGraph :=
           {| OpenGraph.title := Article.title r;
              OpenGraph.description := Article.description r;
              OpenGraph.type := "article";
              OpenGraph.publishedTime := Article.date r;
              OpenGraph.url :=
                "https://benjoquilario.vercel.app/articles/" ++ Article.slug r |};
         Metadata.twitter :=
           {| Twitter.card := "summary_large_image";
              Twitter.title := Article.title r;
              Twitter.description := Article.description r |} |}).
Proof.
  intros H. unfold generateMetadata. rewrite generateMetadata_lookup_eq, H.
  reflexivity.
Qed.

Lemma getArticleFromParams_value_find (allArticles : list Article.t) (params : Params.t)
      (r : Article.t) :
  outcome (getArticleFromParams allArticles params) = Return (value r) ->
  List.find (fun a => String.eqb (Article.slugAsParams a) (join "/" (Params.slug params)))
            allArticles = Some r.
Proof.
  intros H. apply find_FirstMatch. apply getArticleFromParams_value_FirstMatch. exact H.
Qed.

Lemma append_assoc (a b c : string) : (a ++ b) ++ c = a ++ b ++ c.
Proof.
  induction a as [|x a IH]; cbn [append]; [reflexivity | rewrite IH; reflexivity].
Qed.

Lemma append_nil_r (a : string) : a ++ "" = a.
Proof.
  induction a as [|x a IH]; cbn [append]; [reflexivity | rewrite IH; reflexivity].
Qed.

(** C2: [generateMetadata] returns [undefined] exactly when
    [getArticleFromParams], on the same segments and collection, returns
    [null]; neither of them throws. *)
Theorem generateMetadata_undefined_iff_null :
  forall (allArticles : list Article.t) (params : Params.t),
  exists (metadata : option Metadata.t) (article : Nullable Article.t),
    outcome (generateMetadata allArticles params) = Return metadata /\
    outcome (getArticleFromParams allArticles params) = Return article /\
    (metadata = None <-> article = null).
Proof.
  intros allArticles params.
  destruct (List.find (fun a => String.eqb (Article.slugAsParams a)
                                  (join "/" (Params.slug params))) allArticles)
    as [r|] eqn:E.
  - eexists. exists (value r).
    split; [apply generateMetadata_found; exact E|].
    split; [apply getArticleFromParams_FirstMatch, find_FirstMatch; exact E|].
    split; discriminate.
  - exists None, null.
    split; [apply generateMetadata_not_found; exact E|].
    split; [|split; reflexivity].
    rewrite getArticleFromParams_eq. cbn [outcome snd]. rewrite E. reflexivity.
Qed.

Lemma Shared_getArticleFromParams_run (params : Params.t) (store : list Article.t) :
  Shared.getArticleFromParams params store = (store, getArticleFromParams store params).
Proof.
  unfold Shared.getArticleFromParams, Shared.bind, Shared.allArticles_find, Shared.lift.
  change (find _ store) with (generateMetadata_lookup store params).
  rewrite getArticleFromParams_eq, generateMetadata_lookup_eq.
  destruct (List.find _ store); cbn [orNull ret]; rewrite app_nil_r; reflexivity.
Qed.

(** A call that writes to the array is not repeatable: the second
    [shift] returns another record than the first. *)
Lemma Shared_shift_twice :
  Shared.twice Shared.allArticles_shift [hello_world; authentication_nextjs]
  = ([], ([], Return (Some hello_world, Some authentication_nextjs))).
Proof. reflexivity. Qed.

(** C6: [getArticleFromParams] leaves the shared collection as it found
    it and returns normally, so a second call with the same segments,
    made after the first over the same collection, makes the same reads
    and yields the same result as the first. *)
Theorem getArticleFromParams_second_call :
  forall (allArticles : list Article.t) (params : Params.t),
  exists (visited : list Access) (article : Nullable Article.t),
    Shared.getArticleFromParams params allArticles
    = (allArticles, (visited, Return article)) /\
    Shared.twice (Shared.getArticleFromParams params) allArticles
    = (allArticles, ((visited ++ visited)%list, Return (article, article))) /\
    getArticleFromParams allArticles params = (visited, Return article).
Proof.
  intros allArticles params.
  unfold Shared.twice, Shared.bind, Shared.lift.
  rewrite !Shared_getArticleFromParams_run, getArticleFromParams_eq.
  eexists. eexists. split; [reflexivity|]. split; [|reflexivity].
  cbn [ret]. rewrite app_nil_r. reflexivity.
Qed.

(** C4, as stated, fails: the URL is built from the record's [slug]
    property, not from the [slugAsParams] the segments were matched with.
    Here the record found for ["authentication-nextjs"] has
    [slug = "/blog/authentication-nextjs"]. *)
Lemma generateMetadata_url_not_from_slugAsParams :
  outcome (getArticleFromParams [authentication_nextjs_blog] authentication_params)
  = Return (value authentication_nextjs_blog) /\
  Article.slugAsParams authentication_nextjs_blog = "authentication-nextjs" /\
  exists metadata,
    outcome (generateMetadata [authentication_nextjs_blog] authentication_params)
    = Return (Some metadata) /\
    OpenGraph.url (Metadata.openGraph metadata)
    = "https://benjoquilario.vercel.app/articles//blog/authentication-nextjs" /\
    ~ EndsWith "/articles/authentication-nextjs"
               (OpenGraph.url (Metadata.openGraph metadata)).
Proof.
  split; [reflexivity|]. split; [reflexivity|].
  eexists. split; [reflexivity|]. split; [reflexivity|].
  intros H. apply endsWith_EndsWith in H. vm_compute in H. discriminate H.
Qed.

(** C4 (amended): for every record the lookup finds, the Open Graph URL is
    the site origin "https://benjoquilario.vercel.app", then "/articles/",
    then the record's [slug] property; in particular, when the segments
    ["authentication-nextjs"] find a record whose [slug] property is
    "authentication-nextjs" as well, the URL ends in
    "/articles/authentication-nextjs". *)
Theorem generateMetadata_url :
  forall (allArticles : list Article.t) (params : Params.t) (r : Article.t),
    outcome (getArticleFromParams allArticles params) = Return (value r) ->
    exists metadata,
      outcome (generateMetadata allArticles params) = Return (Some metadata) /\
      OpenGraph.url (Metadata.openGraph metadata)
      = "https://benjoquilario.vercel.app" ++ "/articles/" ++ Article.slug r /\
      (Params.slug params = ["authentication-nextjs"] ->
       Article.slug r = "authentication-nextjs" ->
       Article.slugAsParams r = "authentication-nextjs" /\
       EndsWith "/articles/authentication-nextjs"
                (OpenGraph.url (Metadata.openGraph metadata))).
Proof.
  intros allArticles params r H.
  pose proof (getArticleFromParams_value_FirstMatch _ _ _ H) as (_ & _ & _ & Hkey & _).
  apply getArticleFromParams_value_find in H.
  eexists. split; [apply generateMetadata_found; exact H|].
  cbn [Metadata.openGraph OpenGraph.url]. split; [reflexivity|].
  intros Hsegments Hslug. split.
  - rewrite Hkey, Hsegments. reflexivity.
  - rewrite Hslug. exists "https://benjoquilario.vercel.app". reflexivity.
Qed.

(** The sample article, whose [slug] is its [slugAsParams]. *)
Lemma generateMetadata_url_witness :
  exists metadata,
    outcome (generateMetadata [hello_world; authentication_nextjs] authentication_params)
    = Return (Some metadata) /\
    OpenGraph.url (Metadata.openGraph metadata)
    = "https://benjoquilario.vercel.app/articles/authentication-nextjs" /\
    EndsWith "/articles/authentication-nextjs"
             (OpenGraph.url (Metadata.openGraph metadata)).
Proof.
  destruct (generateMetadata_url [hello_world; authentication_nextjs]
              authentication_params authentication_nextjs eq_refl)
    as (metadata & Hout & Hurl & Hends).
  exists metadata. split; [exact Hout|]. split; [exact Hurl|].
  exact (proj2 (Hends eq_refl eq_refl)).
Defined.

(** C7: for every record the lookup finds, the metadata has Open Graph type
    "article", Open Graph published time the record's date, Twitter card
    "summary_large_image", and the record's title and description at top
    level, under Open Graph and under Twitter. *)
Theorem generateMetadata_fields :
  forall (allArticles : list Article.t) (params : Params.t) (r : Article.t),
    outcome (getArticleFromParams allArticles params) = Return (value r) ->
    exists metadata,
      outcome (generateMetadata allArticles params) = Return (Some metadata) /\
      OpenGraph.type (Metadata.openGraph metadata) = "article" /\
      OpenGraph.publishedTime (Metadata.openGraph metadata) = Article.date r /\
      Twitter.card (Metadata.twitter metadata) = "summary_large_image" /\
      Metadata.title metadata = Article.title r /\
      Metadata.description metadata = Article.description r /\
      OpenGraph.title (Metadata.openGraph metadata) = Article.title r /\
      OpenGraph.description (Metadata.openGraph metadata) = Article.description r /\
      Twitter.title (Metadata.twitter metadata) = Article.title r /\
      Twitter.description (Metadata.twitter metadata) = Article.description r.
Proof.
  intros allArticles params r H.
  apply getArticleFromParams_value_find in H.
  eexists. split; [apply generateMetadata_found; exact H|].
  repeat split.
Qed.

(** The metadata of the sample article. *)
Lemma generateMetadata_fields_witness :
  exists metadata,
    outcome (generateMetadata [hello_world; authentication_nextjs] authentication_params)
    = Return (Some metadata) /\
    OpenGraph.type (Metadata.openGraph metadata) = "article" /\
    OpenGraph.publishedTime (Metadata.openGraph metadata) = "2023-09-19" /\
    Twitter.card (Metadata.twitter metadata) = "summary_large_image" /\
    Metadata.title metadata
    = "Implement authentication system using Next.js with app dir".
Proof.
  destruct (generateMetadata_fields [hello_world; authentication_nextjs]
              authentication_params authentication_nextjs eq_refl)
    as (metadata & Hout & Htype & Htime & Hcard & Htitle & _).
  exists metadata. repeat split; assumption.
Defined.

(** ** Rendering *)

Lemma subnodes_Elem (tag : string) (props : list (string * PropVal))
      (children : list Node) :
  subnodes (Elem tag props children)
  = Elem tag props children :: flat_map subnodes children.
Proof.
  reflexivity.
Qed.

Lemma subnodes_self (n : Node) : In n (subnodes n).
Proof. destruct n; left; reflexivity. Qed.

(** Whatever is in the [i]-th child is in the element. *)
Lemma subnodes_nth (tag : string) (props : list (string * PropVal))
      (children : list Node) (i : nat) (c n : Node) :
  nth_error children i = Some c ->
  In n (subnodes c) ->
  In n (subnodes (Elem tag props children)).
Proof.
  intros Hc Hn. rewrite subnodes_Elem. right.
  apply in_flat_map. exists c. split; [exact (nth_error_In _ _ Hc) | exact Hn].
Qed.

Lemma Contains_refl (sub : string) : Contains sub sub.
Proof. exists "", "". cbn [append]. rewrite append_nil_r. reflexivity. Qed.

Lemma Contains_here (sub after : string) : Contains sub (sub ++ after).
Proof. exists "", after. reflexivity. Qed.

Lemma Contains_skip (sub a s : string) : Contains sub s -> Contains sub (a ++ s).
Proof.
  intros (before & after & ->). exists (a ++ before), after.
  rewrite append_assoc. reflexivity.
Qed.

Lemma Contains_String (sub : string) (c : ascii) (s : string) :
  Contains sub s -> Contains sub (String c s).
Proof. apply (Contains_skip sub (String c "")). Qed.

Lemma ArticlePage_null (allArticles : list Article.t) (now : Z)
      (relativeDate : Z -> string -> string) (params : Params.t) :
  outcome (getArticleFromParams allArticles params) = Return null ->
  ArticlePage allArticles now relativeDate params
  = (reads (getArticleFromParams allArticles params), Throw NEXT_NOT_FOUND).
Proof.
  unfold ArticlePage.
  destruct (getArticleFromParams allArticles params) as [t o].
  cbn [outcome snd reads fst]. intros ->.
  cbn [bind notFound]. rewrite app_nil_r. reflexivity.
Qed.

(** Run the page on a record the lookup found. *)
Ltac run_ArticlePage H :=
  unfold ArticlePage;
  rewrite getArticleFromParams_eq, (getArticleFromParams_value_find _ _ _ H);
  cbn [orNull]; unfold bind at 1; cbn [get ret bind].

(** Go down to the [i]-th child. *)
Ltac descend i := eapply (subnodes_nth _ _ _ i); [reflexivity|].

(** Find a text in a concatenation. *)
Ltac locate :=
  cbn [textContent append]; rewrite ?append_nil_r, ?append_assoc;
  repeat first [ apply Contains_refl | apply Contains_here
               | apply Contains_String | apply Contains_skip ].

(** C5: when the segments match no record, [ArticlePage] ends in
    [notFound()] and returns no element; the only property reads it makes
    are the lookup's comparisons of [slugAsParams], so no [title],
    [description], [date], [timeToRead] or [body.code] is read. *)
Theorem ArticlePage_not_found :
  forall (allArticles : list Article.t) (now : Z)
         (relativeDate : Z -> string -> string) (params : Params.t),
    (forall r, In r allArticles ->
               Article.slugAsParams r <> join "/" (Params.slug params)) ->
    outcome (ArticlePage allArticles now relativeDate params) = Throw NEXT_NOT_FOUND /\
    (forall out, outcome (ArticlePage allArticles now relativeDate params) <> Return out) /\
    reads (ArticlePage allArticles now relativeDate params)
    = map slugAsParams_read allArticles /\
    (forall a f, In (a, f) (reads (ArticlePage allArticles now relativeDate params)) ->
                 ~ In f displayed).
Proof.
  intros allArticles now relativeDate params Hnone.
  assert (Hnull : outcome (getArticleFromParams allArticles params) = Return null).
  { rewrite getArticleFromParams_eq. cbn [outcome snd].
    rewrite (proj2 (find_no_match _ _) Hnone). reflexivity. }
  rewrite (ArticlePage_null _ _ _ _ Hnull).
  rewrite getArticleFromParams_eq. cbn [outcome snd reads fst].
  rewrite (scanned_no_match _ _ Hnone).
  split; [reflexivity|]. split; [discriminate|]. split; [reflexivity|].
  intros a f Hin. apply in_map_iff in Hin. destruct Hin as (x & Hx & _).
  injection Hx as _ <-. cbn. intuition discriminate.
Qed.

(** A path nobody has: two comparisons, then the not-found exit. *)
Lemma ArticlePage_not_found_witness :
  ArticlePage [hello_world; authentication_nextjs] 0 sample_relativeDate missing_params
  = ([(hello_world, FslugAsParams); (authentication_nextjs, FslugAsParams)],
     Throw NEXT_NOT_FOUND).
Proof.
  assert (Hnone : forall r, In r [hello_world; authentication_nextjs] ->
                   Article.slugAsParams r <> join "/" (Params.slug missing_params)).
  { intros r [<- | [<- | []]]; discriminate. }
  destruct (ArticlePage_not_found [hello_world; authentication_nextjs] 0
              sample_relativeDate missing_params Hnone) as (Hout & _ & Hreads & _).
  apply injective_projections; [exact Hreads | exact Hout].
Defined.

(** How numbers print: whole digits below 1e21, a decimal point for
    fractions, exponent notation from 1e21 on and below 1e-6. *)
Lemma toString_examples :
  toString (integer 5) = "5" /\
  toString (integer (-12)) = "-12" /\
  toString (integer 0) = "0" /\
  toString (Finite false 43 (-1)) = "4.3" /\
  toString (Finite false 1 (-6)) = "0.000001" /\
  toString (Finite false 15 (-8)) = "1.5e-7" /\
  toString (integer 100000000000000000000) = "100000000000000000000" /\
  toString (integer 1000000000000000000000) = "1e+21" /\
  toString (Finite false 1 21) = "1e+21" /\
  toString (Finite false 12345 21) = "1.2345e+25" /\
  toString NaN = "NaN" /\
  toString (Infinity true) = "-Infinity".
Proof. repeat split. Qed.

(** C8: for every record the lookup finds, the page has a span showing
    [relativeDate] of the record's date (at the current time) and a span
    showing the record's [timeToRead], as JavaScript prints the number,
    followed by " min read"; with [timeToRead = 5] that text is
    "5 min read".  Both texts occur in the text of the whole page. *)
Theorem ArticlePage_date_and_reading_time :
  forall (allArticles : list Article.t) (now : Z)
         (relativeDate : Z -> string -> string) (params : Params.t) (r : Article.t),
    outcome (getArticleFromParams allArticles params) = Return (value r) ->
    exists out,
      outcome (ArticlePage allArticles now relativeDate params) = Return out /\
      ShowsIn "span" out (relativeDate now (Article.date r)) /\
      Contains (relativeDate now (Article.date r)) (textContent out) /\
      ShowsIn "span" out (toString (Article.timeToRead r) ++ " min read") /\
      Contains (toString (Article.timeToRead r) ++ " min read") (textContent out) /\
      (Article.timeToRead r = integer 5 ->
       ShowsIn "span" out "5 min read" /\ Contains "5 min read" (textContent out)).
Proof.
  intros allArticles now relativeDate params r H.
  run_ArticlePage H.
  assert (Hfive : Article.timeToRead r = integer 5 ->
                  toString (Article.timeToRead r) ++ " min read" = "5 min read")
    by (intros ->; reflexivity).
  destruct (truthy (Article.description r));
    cbn [get ret bind app outcome snd];
    (eexists; split; [reflexivity|]);
    match goal with
    | |- ?date_span /\ ?date_text /\ ?time_span /\ ?time_text /\ _ =>
        assert (Hdate_span : date_span)
          by (eexists; eexists; split;
              [ descend 4; descend 0; descend 1; apply subnodes_self
              | cbn [textContent]; apply append_nil_r ]);
        assert (Hdate_text : date_text) by locate;
        assert (Htime_span : time_span)
          by (eexists; eexists; split;
              [ descend 4; descend 1; descend 1; apply subnodes_self
              | cbn [textContent]; rewrite append_nil_r; reflexivity ]);
        assert (Htime_text : time_text) by locate
    end;
    (split; [exact Hdate_span|]); (split; [exact Hdate_text|]);
    (split; [exact Htime_span|]); (split; [exact Htime_text|]);
    intros H5; rewrite (Hfive H5) in Htime_span, Htime_text;
    (split; [exact Htime_span | exact Htime_text]).
Qed.

(** The sample article: dated 2023-09-19, five minutes to read. *)
Lemma ArticlePage_date_and_reading_time_witness :
  exists out,
    outcome (ArticlePage [hello_world; authentication_nextjs] 0 sample_relativeDate
               authentication_params) = Return out /\
    ShowsIn "span" out "since 2023-09-19" /\
    ShowsIn "span" out "5 min read" /\
    Contains "5 min read" (textContent out).
Proof.
  destruct (ArticlePage_date_and_reading_time [hello_world; authentication_nextjs] 0
              sample_relativeDate authentication_params authentication_nextjs eq_refl)
    as (out & Hout & Hdate & _ & _ & _ & Hfive).
  exists out. split; [exact Hout|]. split; [exact Hdate|]. exact (Hfive eq_refl).
Defined.

(** C10: for every record the lookup finds, the page contains a paragraph
    element exactly when the record has a description that is not the
    empty string, and that paragraph then holds the description; with the
    empty string, as with no description, the slot after the heading holds
    a value that shows nothing. *)
Theorem ArticlePage_description_paragraph :
  forall (allArticles : list Article.t) (now : Z)
         (relativeDate : Z -> string -> string) (params : Params.t) (r : Article.t),
    outcome (getArticleFromParams allArticles params) = Return (value r) ->
    exists out,
      outcome (ArticlePage allArticles now relativeDate params) = Return out /\
      (existsb is_paragraph (subnodes out) = true <->
       exists d, Article.description r = Some d /\ d <> "") /\
      (forall d, Article.description r = Some d -> d <> "" ->
                 nth_error (children_of out) 2 = Some (Elem "p" [] [Text d])) /\
      (Article.description r = Some "" ->
       nth_error (children_of out) 2 = Some (Text "")) /\
      (Article.description r = None ->
       nth_error (children_of out) 2 = Some Undefined).
Proof.
  intros allArticles now relativeDate params r H.
  run_ArticlePage H.
  destruct (Article.description r) as [d|]; cbn [truthy].
  - destruct (String.eqb d "") eqn:E; cbn [negb].
    + apply String.eqb_eq in E. subst d.
      cbn [get ret bind app outcome snd child].
      eexists. split; [reflexivity|]. split; [|split; [|split]].
      * split; [discriminate|]. intros (d & [= <-] & Hd). contradiction.
      * intros d [= <-] Hd. contradiction.
      * reflexivity.
      * discriminate.
    + apply String.eqb_neq in E.
      cbn [get ret bind app outcome snd child].
      eexists. split; [reflexivity|]. split; [|split; [|split]].
      * split; [|reflexivity]. intros _. exists d. split; [reflexivity | exact E].
      * intros d' [= <-] _. reflexivity.
      * intros [= ->]. contradiction.
      * discriminate.
  - cbn [get ret bind app outcome snd child].
    eexists. split; [reflexivity|]. split; [|split; [|split]].
    + split; [discriminate|]. intros (d & Hd & _). discriminate.
    + discriminate.
    + discriminate.
    + reflexivity.
Qed.

(** A record whose description is the empty string: no paragraph. *)
Lemma ArticlePage_description_paragraph_witness :
  exists out,
    outcome (ArticlePage [authentication_nextjs_blog] 0 sample_relativeDate
               authentication_params) = Return out /\
    existsb is_paragraph (subnodes out) = false /\
    nth_error (children_of out) 2 = Some (Text "").
Proof.
  destruct (ArticlePage_description_paragraph [authentication_nextjs_blog] 0
              sample_relativeDate authentication_params authentication_nextjs_blog
              eq_refl)
    as (out & Hout & Hiff & _ & Hempty & _).
  exists out. split; [exact Hout|]. split; [|exact (Hempty eq_refl)].
  destruct (existsb is_paragraph (subnodes out)); [|reflexivity].
  destruct (proj1 Hiff eq_refl) as (d & Hd & Hne).
  injection Hd as <-. exfalso. apply Hne. reflexivity.
Defined.

(** ** Further properties of the lookup *)

Lemma scanned_FirstMatch (k : string) (before after : list Article.t) (r : Article.t) :
  Article.slugAsParams r = k ->
  (forall x, In x before -> Article.slugAsParams x <> k) ->
  scanned k (before ++ r :: after) = (before ++ [r])%list.
Proof.
  intros Hr. induction before as [|b before IH]; intros Hb; cbn [app scanned].
  - rewrite (proj2 (String.eqb_eq _ _) Hr). reflexivity.
  - rewrite (proj2 (String.eqb_neq _ _) (Hb b (or_introl eq_refl))).
    rewrite IH; [reflexivity|]. intros x Hx. apply Hb. right. exact Hx.
Qed.

Lemma find_app_found (k : string) (l more : list Article.t) (r : Article.t) :
  List.find (fun a => String.eqb (Article.slugAsParams a) k) l = Some r ->
  List.find (fun a => String.eqb (Article.slugAsParams a) k) (l ++ more) = Some r /\
  scanned k (l ++ more) = scanned k l.
Proof.
  induction l as [|a l IH]; [discriminate|].
  cbn [app List.find scanned].
  destruct (String.eqb (Article.slugAsParams a) k).
  - intros H. split; [exact H | reflexivity].
  - intros H. destruct (IH H) as [Hfind Hscan]. rewrite Hscan. split; [exact Hfind | reflexivity].
Qed.

Lemma join_app (sep : string) (l1 l2 : list string) :
  l1 <> [] -> l2 <> [] ->
  join sep (l1 ++ l2) = join sep l1 ++ sep ++ join sep l2.
Proof.
  intros H1 H2. induction l1 as [|x l1 IH]; [contradiction|].
  destruct l1 as [|y l1].
  - cbn [app]. destruct l2 as [|z l2]; [contradiction | reflexivity].
  - change (x ++ sep ++ join sep ((y :: l1) ++ l2)
            = (x ++ sep ++ join sep (y :: l1)) ++ sep ++ join sep l2).
    rewrite IH by discriminate. rewrite !append_assoc. reflexivity.
Qed.

(** X1: the lookup stops at the first match: it compares the
    [slugAsParams] of the records before the first match and of the match
    itself, in order, and reads nothing of the records after it. *)
Theorem getArticleFromParams_reads_stop_at_first_match :
  forall (before after : list Article.t) (r : Article.t) (params : Params.t),
    Article.slugAsParams r = join "/" (Params.slug params) ->
    (forall x, In x before ->
               Article.slugAsParams x <> join "/" (Params.slug params)) ->
    reads (getArticleFromParams (before ++ r :: after) params)
    = map slugAsParams_read (before ++ [r]).
Proof.
  intros before after r params Hr Hb.
  rewrite getArticleFromParams_eq. cbn [reads fst].
  rewrite (scanned_FirstMatch _ _ _ _ Hr Hb). reflexivity.
Qed.

(** The draft is found second; the article behind it is not looked at. *)
Lemma getArticleFromParams_reads_stop_at_first_match_witness :
  reads (getArticleFromParams
           [hello_world; authentication_nextjs_draft; authentication_nextjs]
           authentication_params)
  = [(hello_world, FslugAsParams); (authentication_nextjs_draft, FslugAsParams)].
Proof.
  apply (getArticleFromParams_reads_stop_at_first_match
           [hello_world] [authentication_nextjs] authentication_nextjs_draft
           authentication_params).
  - reflexivity.
  - intros x [<- | []]. discriminate.
Defined.

(** X2: whatever [getArticleFromParams] returns is justified by the
    collection: a returned record is a member whose [slugAsParams] is the
    joined segments, with no such record before it, and [null] is returned
    only when no record of the collection has that [slugAsParams]. *)
Theorem getArticleFromParams_sound :
  forall (allArticles : list Article.t) (params : Params.t),
    (forall r,
        outcome (getArticleFromParams allArticles params) = Return (value r) ->
        In r allArticles /\
        Article.slugAsParams r = join "/" (Params.slug params) /\
        FirstMatch (join "/" (Params.slug params)) allArticles r) /\
    (outcome (getArticleFromParams allArticles params) = Return null ->
     forall r, In r allArticles ->
               Article.slugAsParams r <> join "/" (Params.slug params)).
Proof.
  intros allArticles params. split.
  - intros r H. apply getArticleFromParams_value_FirstMatch in H.
    split; [exact (FirstMatch_In _ _ _ H)|]. split; [|exact H].
    destruct H as (_ & _ & _ & Hr & _). exact Hr.
  - rewrite getArticleFromParams_eq. cbn [outcome snd]. intros H.
    apply find_no_match. destruct (List.find _ allArticles); [discriminate H | reflexivity].
Qed.

(** On the sample collection, read backwards from the two results. *)
Lemma getArticleFromParams_sound_witness :
  In authentication_nextjs [hello_world; authentication_nextjs] /\
  Article.slugAsParams hello_world <> join "/" (Params.slug missing_params).
Proof.
  split.
  - exact (proj1 (proj1 (getArticleFromParams_sound
                           [hello_world; authentication_nextjs] authentication_params)
                        authentication_nextjs eq_refl)).
  - exact (proj2 (getArticleFromParams_sound
                    [hello_world; authentication_nextjs] missing_params)
                 eq_refl hello_world (or_introl eq_refl)).
Defined.

(** X3: records added behind a collection never shadow a record that is
    already found: the lookup, the metadata and the page, with the reads
    they make, are those of the shorter collection. *)
Theorem found_stable_under_append :
  forall (allArticles more : list Article.t) (now : Z)
         (relativeDate : Z -> string -> string) (params : Params.t) (r : Article.t),
    outcome (getArticleFromParams allArticles params) = Return (value r) ->
    getArticleFromParams (allArticles ++ more) params
    = getArticleFromParams allArticles params /\
    generateMetadata (allArticles ++ more) params
    = generateMetadata allArticles params /\
    ArticlePage (allArticles ++ more) now relativeDate params
    = ArticlePage allArticles now relativeDate params.
Proof.
  intros allArticles more now relativeDate params r H.
  apply getArticleFromParams_value_find in H.
  destruct (find_app_found _ _ more _ H) as [Hfind Hscan].
  assert (Hget : getArticleFromParams (allArticles ++ more) params
                 = getArticleFromParams allArticles params).
  { rewrite !getArticleFromParams_eq, Hfind, Hscan, H. reflexivity. }
  split; [exact Hget|]. split.
  - unfold generateMetadata. rewrite !generateMetadata_lookup_eq, Hfind, Hscan, H.
    reflexivity.
  - unfold ArticlePage. rewrite Hget. reflexivity.
Qed.

(** A draft filed behind the article changes nothing. *)
Lemma found_stable_under_append_witness :
  ArticlePage ([hello_world; authentication_nextjs] ++ [authentication_nextjs_draft])
              0 sample_relativeDate authentication_params
  = ArticlePage [hello_world; authentication_nextjs] 0 sample_relativeDate
                authentication_params.
Proof.
  exact (proj2 (proj2 (found_stable_under_append
                         [hello_world; authentication_nextjs] [authentication_nextjs_draft]
                         0 sample_relativeDate authentication_params
                         authentication_nextjs eq_refl))).
Defined.

(** X4: only the joined path counts, not where the segments are cut:
    segments [l1 ++ l2] and the single segment made of both halves with a
    "/" between them give the same lookup, metadata and page. *)
Theorem segment_boundaries_do_not_matter :
  forall (allArticles : list Article.t) (now : Z)
         (relativeDate : Z -> string -> string) (l1 l2 : list string),
    l1 <> [] -> l2 <> [] ->
    let cut := {| Params.slug := (l1 ++ l2)%list |} in
    let whole := {| Params.slug := [join "/" l1 ++ "/" ++ join "/" l2] |} in
    getArticleFromParams allArticles cut = getArticleFromParams allArticles whole /\
    generateMetadata allArticles cut = generateMetadata allArticles whole /\
    ArticlePage allArticles now relativeDate cut
    = ArticlePage allArticles now relativeDate whole.
Proof.
  intros allArticles now relativeDate l1 l2 H1 H2 cut whole.
  assert (Hget : getArticleFromParams allArticles cut
                 = getArticleFromParams allArticles whole).
  { unfold getArticleFromParams, cut, whole. cbn [Params.slug].
    rewrite (join_app "/" l1 l2 H1 H2). reflexivity. }
  split; [exact Hget|]. split.
  - unfold generateMetadata, generateMetadata_lookup, cut, whole. cbn [Params.slug].
    rewrite (join_app "/" l1 l2 H1 H2). reflexivity.
  - unfold ArticlePage. rewrite Hget. reflexivity.
Qed.

(** ["notes"; "hello-world"] and ["notes/hello-world"] are the same request. *)
Lemma segment_boundaries_do_not_matter_witness :
  outcome (getArticleFromParams [hello_world; authentication_nextjs]
             {| Params.slug := ["notes/hello-world"] |})
  = Return (value hello_world).
Proof.
  destruct (segment_boundaries_do_not_matter [hello_world; authentication_nextjs] 0
              sample_relativeDate ["notes"] ["hello-world"])
    as (Hget & _ & _); [discriminate | discriminate |].
  cbn [join append] in Hget. rewrite <- Hget. reflexivity.
Defined.

(** ** Further properties of the metadata and the page *)

(** X5: [generateMetadata] reads, after the comparisons of the lookup, the
    [title], [date], [description] and [slug] of the record found, once
    each and of no other record; it never reads [timeToRead] or
    [body.code].  When nothing is found it compares every record, reads
    nothing else and returns [undefined]. *)
Theorem generateMetadata_reads :
  forall (allArticles : list Article.t) (params : Params.t),
    (forall before r after,
        allArticles = (before ++ r :: after)%list ->
        Article.slugAsParams r = join "/" (Params.slug params) ->
        (forall x, In x before ->
                   Article.slugAsParams x <> join "/" (Params.slug params)) ->
        reads (generateMetadata allArticles params)
        = (map slugAsParams_read (before ++ [r])
           ++ [(r, Ftitle); (r, Fdate); (r, Fdescription); (r, Fslug)])%list) /\
    ((forall r, In r allArticles ->
                Article.slugAsParams r <> join "/" (Params.slug params)) ->
     generateMetadata allArticles params
     = (map slugAsParams_read allArticles, Return None)).
Proof.
  intros allArticles params. split.
  - intros before r after -> Hr Hb.
    assert (Hfind : FirstMatch (join "/" (Params.slug params)) (before ++ r :: after) r).
    { exists before, after. split; [reflexivity|]. split; [exact Hr | exact Hb]. }
    apply find_FirstMatch in Hfind.
    unfold generateMetadata. rewrite generateMetadata_lookup_eq, Hfind.
    rewrite (scanned_FirstMatch _ _ _ _ Hr Hb). reflexivity.
  - intros Hnone.
    unfold generateMetadata. rewrite generateMetadata_lookup_eq.
    rewrite (proj2 (find_no_match _ _) Hnone), (scanned_no_match _ _ Hnone).
    cbn [bind ret]. rewrite app_nil_r. reflexivity.
Qed.

(** The sample article, behind one record that does not match. *)
Lemma generateMetadata_reads_witness :
  reads (generateMetadata [hello_world; authentication_nextjs] authentication_params)
  = [(hello_world, FslugAsParams); (authentication_nextjs, FslugAsParams);
     (authentication_nextjs, Ftitle); (authentication_nextjs, Fdate);
     (authentication_nextjs, Fdescription); (authentication_nextjs, Fslug)] /\
  generateMetadata [hello_world; authentication_nextjs] missing_params
  = ([(hello_world, FslugAsParams); (authentication_nextjs, FslugAsParams)], Return None).
Proof.
  split.
  - apply (proj1 (generateMetadata_reads [hello_world; authentication_nextjs]
                    authentication_params) [hello_world] authentication_nextjs []).
    + reflexivity.
    + reflexivity.
    + intros x [<- | []]. discriminate.
  - apply (proj2 (generateMetadata_reads [hello_world; authentication_nextjs]
                    missing_params)).
    intros r [<- | [<- | []]]; discriminate.
Defined.

(** X6: for a record the lookup finds, [ArticlePage] reads, after the
    comparisons of the lookup, that record's [title], its [description]
    (a second time when it is a non-empty string), its [date],
    [timeToRead] and [body.code], in this order; it reads no other record
    and never [slug]. *)
Theorem ArticlePage_reads :
  forall (before after : list Article.t) (now : Z)
         (relativeDate : Z -> string -> string) (params : Params.t) (r : Article.t),
    Article.slugAsParams r = join "/" (Params.slug params) ->
    (forall x, In x before ->
               Article.slugAsParams x <> join "/" (Params.slug params)) ->
    reads (ArticlePage (before ++ r :: after) now relativeDate params)
    = (map slugAsParams_read (before ++ [r])
       ++ [(r, Ftitle); (r, Fdescription)]
       ++ (if truthy (Article.description r) then [(r, Fdescription)] else [])
       ++ [(r, Fdate); (r, FtimeToRead); (r, Fbody_code)])%list.
Proof.
  intros before after now relativeDate params r Hr Hb.
  assert (H : outcome (getArticleFromParams (before ++ r :: after) params)
              = Return (value r)).
  { apply getArticleFromParams_FirstMatch. exists before, after.
    split; [reflexivity|]. split; [exact Hr | exact Hb]. }
  run_ArticlePage H.
  rewrite (scanned_FirstMatch _ _ _ _ Hr Hb).
  destruct (truthy (Article.description r)); reflexivity.
Qed.

(** The sample article has a description: it is read twice. *)
Lemma ArticlePage_reads_witness :
  reads (ArticlePage [hello_world; authentication_nextjs; authentication_nextjs_draft]
           0 sample_relativeDate authentication_params)
  = [(hello_world, FslugAsParams); (authentication_nextjs, FslugAsParams);
     (authentication_nextjs, Ftitle); (authentication_nextjs, Fdescription);
     (authentication_nextjs, Fdescription); (authentication_nextjs, Fdate);
     (authentication_nextjs, FtimeToRead); (authentication_nextjs, Fbody_code)].
Proof.
  apply (ArticlePage_reads [hello_world] [authentication_nextjs_draft] 0
           sample_relativeDate authentication_params authentication_nextjs).
  - reflexivity.
  - intros x [<- | []]. discriminate.
Defined.

Lemma ArticlePage_value (allArticles : list Article.t) (now : Z)
      (relativeDate : Z -> string -> string) (params : Params.t) (r : Article.t) :
  outcome (getArticleFromParams allArticles params) = Return (value r) ->
  exists out,
    outcome (ArticlePage allArticles now relativeDate params) = Return out /\
    nth_error (children_of out) 1 = Some (Elem "h1" [] [Text (Article.title r)]) /\
    nth_error (children_of out) 6
    = Some (Elem "Mdx" [("code", PStr (Article.body_code r))] []) /\
    textContent out
    = "Back" ++ Article.title r ++ textContent (child (Article.description r))
      ++ relativeDate now (Article.date r)
      ++ toString (Article.timeToRead r) ++ " min read".
Proof.
  intros H. run_ArticlePage H.
  destruct (Article.description r) as [d|]; cbn [truthy].
  - destruct (String.eqb d "") eqn:E; cbn [negb];
      cbn [get ret bind app outcome snd child];
      (eexists; split; [reflexivity|]); (split; [reflexivity|]); (split; [reflexivity|]);
      cbn [textContent append]; rewrite ?append_nil_r, ?append_assoc; [|reflexivity].
    apply String.eqb_eq in E. subst d. reflexivity.
  - cbn [get ret bind app outcome snd child].
    eexists. split; [reflexivity|]. split; [reflexivity|]. split; [reflexivity|].
    cbn [textContent append]. rewrite ?append_nil_r, ?append_assoc. reflexivity.
Qed.

(** X7: [ArticlePage] ends in [notFound()] exactly when no record of the
    collection has the joined segments as its [slugAsParams], and returns
    an element exactly when some record has. *)
Theorem ArticlePage_outcome :
  forall (allArticles : list Article.t) (now : Z)
         (relativeDate : Z -> string -> string) (params : Params.t),
    (outcome (ArticlePage allArticles now relativeDate params) = Throw NEXT_NOT_FOUND <->
     forall r, In r allArticles ->
               Article.slugAsParams r <> join "/" (Params.slug params)) /\
    ((exists out, outcome (ArticlePage allArticles now relativeDate params) = Return out) <->
     exists r, In r allArticles /\
               Article.slugAsParams r = join "/" (Params.slug params)).
Proof.
  intros allArticles now relativeDate params.
  destruct (List.find (fun a => String.eqb (Article.slugAsParams a)
                                  (join "/" (Params.slug params))) allArticles)
    as [r|] eqn:E.
  - pose proof (proj1 (find_FirstMatch _ _ _) E) as Hfirst.
    pose proof (getArticleFromParams_FirstMatch _ _ _ Hfirst) as Hget.
    destruct (ArticlePage_value _ now relativeDate _ _ Hget) as (out & Hout & _).
    assert (Hr : In r allArticles /\
                 Article.slugAsParams r = join "/" (Params.slug params)).
    { split; [exact (FirstMatch_In _ _ _ Hfirst)|].
      destruct Hfirst as (_ & _ & _ & Hr & _). exact Hr. }
    rewrite Hout. split; split.
    + discriminate.
    + intros Hnone. exfalso. exact (Hnone r (proj1 Hr) (proj2 Hr)).
    + intros _. exists r. exact Hr.
    + intros _. exists out. reflexivity.
  - pose proof (proj1 (find_no_match _ _) E) as Hnone.
    assert (Hnull : outcome (getArticleFromParams allArticles params) = Return null).
    { rewrite getArticleFromParams_eq. cbn [outcome snd]. rewrite E. reflexivity. }
    rewrite (ArticlePage_null _ now relativeDate _ Hnull). cbn [outcome snd].
    split; split.
    + intros _. exact Hnone.
    + reflexivity.
    + intros (out & Hout). discriminate Hout.
    + intros (r & Hin & Hr). exfalso. exact (Hnone r Hin Hr).
Qed.

(** X8: the metadata and the page are about the same record: either
    [generateMetadata] returns metadata and [ArticlePage] an element whose
    heading is the metadata's title and whose [Mdx] gets the [body.code] of
    the record the metadata was built from, or [generateMetadata] returns
    [undefined] and [ArticlePage] ends in [notFound()]. *)
Theorem metadata_and_page_agree :
  forall (allArticles : list Article.t) (now : Z)
         (relativeDate : Z -> string -> string) (params : Params.t),
    (exists metadata out r,
        outcome (generateMetadata allArticles params) = Return (Some metadata) /\
        outcome (ArticlePage allArticles now relativeDate params) = Return out /\
        FirstMatch (join "/" (Params.slug params)) allArticles r /\
        Metadata.title metadata = Article.title r /\
        OpenGraph.publishedTime (Metadata.openGraph metadata) = Article.date r /\
        nth_error (children_of out) 1
        = Some (Elem "h1" [] [Text (Metadata.title metadata)]) /\
        nth_error (children_of out) 6
        = Some (Elem "Mdx" [("code", PStr (Article.body_code r))] []) /\
        ShowsIn "span" out
                (relativeDate now (OpenGraph.publishedTime (Metadata.openGraph metadata))))
    \/
    (outcome (generateMetadata allArticles params) = Return None /\
     outcome (ArticlePage allArticles now relativeDate params) = Throw NEXT_NOT_FOUND).
Proof.
  intros allArticles now relativeDate params.
  destruct (List.find (fun a => String.eqb (Article.slugAsParams a)
                                  (join "/" (Params.slug params))) allArticles)
    as [r|] eqn:E.
  - left.
    pose proof (proj1 (find_FirstMatch _ _ _) E) as Hfirst.
    pose proof (getArticleFromParams_FirstMatch _ _ _ Hfirst) as Hget.
    destruct (ArticlePage_value _ now relativeDate _ _ Hget)
      as (out & Hout & Hh1 & Hmdx & _).
    assert (Hspan : ShowsIn "span" out (relativeDate now (Article.date r))).
    { revert Hout. run_ArticlePage Hget.
      destruct (truthy (Article.description r));
        cbn [get ret bind app outcome snd]; intros [= <-];
        (eexists; eexists; split;
         [ descend 4; descend 0; descend 1; apply subnodes_self
         | cbn [textContent]; apply append_nil_r ]). }
    eexists. exists out, r.
    split; [apply generateMetadata_found; exact E|].
    cbn [Metadata.title Metadata.openGraph OpenGraph.publishedTime].
    repeat (split; [first [assumption | reflexivity]|]). exact Hspan.
  - right. split; [apply generateMetadata_not_found; exact E|].
    assert (Hnull : outcome (getArticleFromParams allArticles params) = Return null).
    { rewrite getArticleFromParams_eq. cbn [outcome snd]. rewrite E. reflexivity. }
    rewrite (ArticlePage_null _ now relativeDate _ Hnull). reflexivity.
Qed.

(** X9: the text of a rendered page is "Back", the title, the description
    if there is one, the relative date, and the reading time followed by
    " min read", in this order; the compiled body is handed to [Mdx] as a
    prop and is no part of it. *)
Theorem ArticlePage_textContent :
  forall (allArticles : list Article.t) (now : Z)
         (relativeDate : Z -> string -> string) (params : Params.t) (r : Article.t),
    outcome (getArticleFromParams allArticles params) = Return (value r) ->
    exists out,
      outcome (ArticlePage allArticles now relativeDate params) = Return out /\
      textContent out
      = "Back" ++ Article.title r
        ++ match Article.description r with Some d => d | None => "" end
        ++ relativeDate now (Article.date r)
        ++ toString (Article.timeToRead r) ++ " min read".
Proof.
  intros allArticles now relativeDate params r H.
  destruct (ArticlePage_value _ now relativeDate _ _ H) as (out & Hout & _ & _ & Htext).
  exists out. split; [exact Hout|]. rewrite Htext.
  destruct (Article.description r); reflexivity.
Qed.

(** A record without description. *)
Lemma ArticlePage_textContent_witness :
  exists out,
    outcome (ArticlePage [hello_world; authentication_nextjs] 0 sample_relativeDate
               {| Params.slug := ["notes"; "hello-world"] |}) = Return out /\
    textContent out = "BackHellosince 2024-01-0212 min read".
Proof.
  destruct (ArticlePage_textContent [hello_world; authentication_nextjs] 0
              sample_relativeDate {| Params.slug := ["notes"; "hello-world"] |}
              hello_world eq_refl) as (out & Hout & Htext).
  exists out. split; [exact Hout | exact Htext].
Defined.
